(** * The Observer pattern of [observer/observer.py]

    A shallow embedding of [ConcreteSubject], of the [Observer] interface
    and of the two observers that [main] declares, followed by the
    properties of subscription management and notification.

    Python objects are compared by identity, methods mutate the
    interpreter's store and may raise.  The store is passed explicitly, a
    method call yields an [Outcome] (normal return or exception, each with
    the store it leaves behind), and the loop of [notify] runs on fuel
    because an observer is free to grow the list that is being iterated. *)

From stdpp Require Import base decidable option list gmap strings pretty.
From Stdlib Require Import ZArith Lia Ascii.

Open Scope Z_scope.

(** ** Values shared by every instantiation *)

(** A [ConcreteSubject] instance, by object identity. *)
Definition Subject := nat.

(** The exceptions the program can raise: [list.remove] of an absent
    element ([ValueError]) and an ordering comparison between [None] and
    an [int] ([TypeError]). *)
Inductive Exn := ValueError | TypeError.

(** [list.remove(x)]: drops the first element equal to [x]; [None] stands
    for the [ValueError] raised when there is none. *)
Fixpoint list_remove {A} `{EqDecision A} (x : A) (l : list A) : option (list A) :=
  match l with
  | [] => None
  | y :: l' => if decide (y = x) then Some l' else cons y <$> list_remove x l'
  end.

(** Comparisons of an [Optional[int]] against an [int] literal.  [==] is
    defined on every pair of objects; [<] and [>=] are not defined between
    [NoneType] and [int]. *)
Definition py_eq (v : option Z) (k : Z) : bool :=
  match v with Some z => bool_decide (z = k) | None => false end.

Definition py_lt (v : option Z) (k : Z) : Exn + bool :=
  match v with Some z => inr (bool_decide (z < k)) | None => inl TypeError end.

Definition py_ge (v : option Z) (k : Z) : Exn + bool :=
  match v with Some z => inr (bool_decide (z >= k)) | None => inl TypeError end.

(** The class attribute [ConcreteSubject._state]: it is bound once, in the
    class body, and no method rebinds it. *)
Definition class_state : option Z := None.

Definition newline : string := String "010"%char EmptyString.

(** ** The subject, for any family of observers and any random source *)

Section Subject.

(** Observer objects, compared by identity as [list.remove] does. *)
Variable Observer : Type.
Context `{EqDecision Observer}.

(** The state of the generator behind [random.randrange]. *)
Variable Rng : Type.

(** The store.
    - [_observers] is the attribute of the class [ConcreteSubject]: no
      method ever binds [_observers] on an instance, so [self._observers]
      resolves to this one list for every [self], and [append] and
      [remove] update it in place.
    - [_state] holds the instance attributes bound by
      [self._state = ...]; an instance without one reads the class
      attribute, which is [None].
    - [random] is the generator, [stdout] the lines printed so far. *)
Record Heap := mkHeap {
  _observers : list Observer;
  _state : gmap Subject Z;
  random : Rng;
  stdout : list string
}.

Inductive Outcome :=
| Return (h : Heap)
| Raise (e : Exn) (h : Heap).

Definition heap_of (r : Outcome) : Heap :=
  match r with Return h => h | Raise _ h => h end.

Definition set_observers (l : list Observer) (h : Heap) : Heap :=
  mkHeap l (_state h) (random h) (stdout h).

Definition set_state (self : Subject) (v : Z) (h : Heap) : Heap :=
  mkHeap (_observers h) (<[self := v]> (_state h)) (random h) (stdout h).

Definition set_random (g : Rng) (h : Heap) : Heap :=
  mkHeap (_observers h) (_state h) g (stdout h).

Definition print (line : string) (h : Heap) : Heap :=
  mkHeap (_observers h) (_state h) (random h) (stdout h ++ [line]).

(** What a subject consists of: the registry and the states. *)
Definition subject_data (h : Heap) : list Observer * gmap Subject Z :=
  (_observers h, _state h).

(** [random.randrange(start, stop)], and [Observer.update], which is
    abstract: every observer class brings its own. *)
Variable randrange : Z -> Z -> Rng -> Z * Rng.
Variable update : Observer -> Subject -> Heap -> Outcome.

(** The property [state]: [self._state] reads the instance attribute
    when the instance has one, the class attribute otherwise. *)
Definition state (self : Subject) (h : Heap) : option Z :=
  match _state h !! self with
  | Some z => Some z
  | None => class_state
  end.

Definition attach (self : Subject) (o : Observer) (h : Heap) : Outcome :=
  let h := print "Subject: Attached an observer." h in
  Return (set_observers (_observers h ++ [o]) h).

Definition detach (self : Subject) (o : Observer) (h : Heap) : Outcome :=
  match list_remove o (_observers h) with
  | Some l => Return (set_observers l h)
  | None => Raise ValueError h
  end.

(** One invocation of [update], as [notify] makes it: the observer, the
    subject handed over, and the state that subject shows at that
    moment.  The list of calls is bookkeeping of the model, out of the
    observers' reach. *)
Record Call := mkCall {
  callee : Observer;
  arg : Subject;
  seen : option Z
}.

(** The [for] loop of [notify].  The list iterator keeps an index into
    the list object and stops when the index reaches the current length;
    an exception of [update] leaves the loop.  No fuel left yields
    [None]. *)
Fixpoint notify_loop (fuel : nat) (self : Subject) (i : nat) (h : Heap)
  : list Call * option Outcome :=
  match fuel with
  | O => ([], None)
  | S fuel' =>
    match _observers h !! i with
    | None => ([], Some (Return h))
    | Some o =>
      let c := mkCall o self (state self h) in
      match update o self h with
      | Return h' =>
        let '(cs, r) := notify_loop fuel' self (S i) h' in (c :: cs, r)
      | Raise e h' => ([c], Some (Raise e h'))
      end
    end
  end.

Definition notify (fuel : nat) (self : Subject) (h : Heap)
  : list Call * option Outcome :=
  let h := print "Subject: Notifying observers..." h in
  notify_loop fuel self 0%nat h.

Definition some_business_logic (fuel : nat) (self : Subject) (h : Heap)
  : list Call * option Outcome :=
  let h := print (newline ++ "Subject: I'm doing something important.") h in
  let '(r, g) := randrange 0 10 (random h) in
  let h := set_state self r (set_random g h) in
  let h := print ("Subject: My state has just changed to: " ++ pretty r) h in
  notify fuel self h.

(** Sequencing of calls: an exception, or the end of the fuel, ends the
    run; the calls made so far are kept. *)
Definition call (f : Heap -> Outcome) (h : Heap) : list Call * option Outcome :=
  ([], Some (f h)).

Definition and_then (m : list Call * option Outcome)
    (k : Heap -> list Call * option Outcome) : list Call * option Outcome :=
  match m with
  | (cs, Some (Return h)) => let '(cs', r) := k h in (cs ++ cs', r)
  | (cs, r) => (cs, r)
  end.

(** [attach] once per element of [os], from left to right. *)
Fixpoint attach_all (self : Subject) (os : list Observer) (h : Heap) : Outcome :=
  match os with
  | [] => Return h
  | o :: os' =>
    match attach self o h with
    | Return h' => attach_all self os' h'
    | Raise e h' => Raise e h'
    end
  end.

(** The calls that hand [self], showing state [v], to each of [os]. *)
Definition calls_to (self : Subject) (v : option Z) (os : list Observer)
  : list Call :=
  (fun o => mkCall o self v) <$> os.

(** The contract of the interface, "must not mutate the subject": in
    whatever way [update] ends, the registry and the states are as it
    found them. *)
Definition no_mutation : Prop :=
  forall o s h, subject_data (heap_of (update o s h)) = subject_data h.

(** [update] returns normally for [self] on the observers registered in
    [h0], in every store whose subjects are as in [h0]. *)
Definition returns_normally (self : Subject) (h0 : Heap) : Prop :=
  forall o h, o ∈ _observers h0 -> subject_data h = subject_data h0 ->
    exists h', update o self h = Return h'.

(** The store when the module has just been loaded: the class list is
    empty, no instance has a state of its own, nothing was printed. *)
Definition initial (g : Rng) : Heap := mkHeap [] ∅ g [].

End Subject.

Arguments mkHeap {Observer Rng}.
Arguments _observers {Observer Rng}.
Arguments _state {Observer Rng}.
Arguments random {Observer Rng}.
Arguments stdout {Observer Rng}.
Arguments Return {Observer Rng}.
Arguments Raise {Observer Rng}.
Arguments heap_of {Observer Rng}.
Arguments set_observers {Observer Rng}.
Arguments set_state {Observer Rng}.
Arguments set_random {Observer Rng}.
Arguments print {Observer Rng}.
Arguments subject_data {Observer Rng}.
Arguments state {Observer Rng}.
Arguments attach {Observer Rng}.
Arguments detach {Observer _ Rng}.
Arguments mkCall {Observer}.
Arguments callee {Observer}.
Arguments arg {Observer}.
Arguments seen {Observer}.
Arguments notify_loop {Observer Rng}.
Arguments notify {Observer Rng}.
Arguments some_business_logic {Observer Rng}.
Arguments call {Observer Rng}.
Arguments and_then {Observer Rng}.
Arguments attach_all {Observer Rng}.
Arguments initial {Observer Rng}.
Arguments calls_to {Observer}.
Arguments no_mutation {Observer Rng}.
Arguments returns_normally {Observer Rng}.

Notation "m >>> k" := (and_then m k) (at level 50, left associativity).

(** ** The observers and the run of [main] *)

(** The two classes declared in [main]; [id] tells the instances of one
    class apart. *)
Inductive ConcreteObserver :=
| ConcreteObserverA (id : nat)
| ConcreteObserverB (id : nat).

#[global] Instance ConcreteObserver_eq_dec : EqDecision ConcreteObserver.
Proof. solve_decision. Defined.

Definition reaction_A : string := "ConcreteObserverA: React to the event".
Definition reaction_B : string := "ConcreteObserverB: React to the event".

Definition ConcreteObserverA_update {Rng} (subject : Subject)
    (h : Heap ConcreteObserver Rng) : Outcome ConcreteObserver Rng :=
  match py_lt (state subject h) 3 with
  | inl e => Raise e h
  | inr true => Return (print reaction_A h)
  | inr false => Return h
  end.

(** [or] evaluates its right operand only when the left one is false. *)
Definition ConcreteObserverB_update {Rng} (subject : Subject)
    (h : Heap ConcreteObserver Rng) : Outcome ConcreteObserver Rng :=
  if py_eq (state subject h) 0 then Return (print reaction_B h)
  else
    match py_ge (state subject h) 2 with
    | inl e => Raise e h
    | inr true => Return (print reaction_B h)
    | inr false => Return h
    end.

(** Method dispatch on the class of the observer. *)
Definition update {Rng} (o : ConcreteObserver) (subject : Subject)
    (h : Heap ConcreteObserver Rng) : Outcome ConcreteObserver Rng :=
  match o with
  | ConcreteObserverA _ => ConcreteObserverA_update subject h
  | ConcreteObserverB _ => ConcreteObserverB_update subject h
  end.

(** A random source that replays a script of raw draws, reduced into the
    requested range; once the script is used up it returns [start]. *)
Definition scripted_randrange (start stop : Z) (g : list Z) : Z * list Z :=
  match g with
  | [] => (start, [])
  | x :: g' => (start + x `mod` (stop - start), g')
  end.

Definition observer_a : ConcreteObserver := ConcreteObserverA 0.
Definition observer_b : ConcreteObserver := ConcreteObserverB 0.

(** [main], run on the subject [subject] with the scripted source. *)
Definition main (fuel : nat) (subject : Subject)
    (h : Heap ConcreteObserver (list Z))
  : list (Call ConcreteObserver) * option (Outcome ConcreteObserver (list Z)) :=
  call (attach subject observer_a) h
  >>> call (attach subject observer_b)
  >>> some_business_logic scripted_randrange update fuel subject
  >>> some_business_logic scripted_randrange update fuel subject
  >>> call (detach subject observer_a)
  >>> some_business_logic scripted_randrange update fuel subject.

(** One mutation cycle with the draw forced to [draw], after [setup] has
    arranged the registry of a program that has just started. *)
Definition forced_cycle
    (setup : Heap ConcreteObserver (list Z) ->
             list (Call ConcreteObserver) * option (Outcome ConcreteObserver (list Z)))
    (draw : Z) (subject : Subject)
  : list (Call ConcreteObserver) * option (Outcome ConcreteObserver (list Z)) :=
  setup (initial [draw])
  >>> some_business_logic scripted_randrange update 8 subject.

(** An outcome in which the observer reacted, by printing [line], and one
    in which it printed nothing. *)
Definition reacts {Rng} (line : string) (h : Heap ConcreteObserver Rng)
    (out : Outcome ConcreteObserver Rng) : Prop :=
  exists h', out = Return h' /\ stdout h' = stdout h ++ [line].

Definition silent {Rng} (h : Heap ConcreteObserver Rng)
    (out : Outcome ConcreteObserver Rng) : Prop :=
  stdout (heap_of out) = stdout h.

(** The reaction lines among what a run has printed. *)
Definition is_reaction (line : string) : bool :=
  bool_decide (line = reaction_A) || bool_decide (line = reaction_B).

Definition reactions {Rng}
    (m : list (Call ConcreteObserver) * option (Outcome ConcreteObserver Rng))
  : list string :=
  match m.2 with
  | Some out => List.filter is_reaction (stdout (heap_of out))
  | None => []
  end.

(** What [update] of an observer prints when the subject it is handed
    shows the integer [z]: the tests of lines 105 and 110. *)
Definition reaction_of (o : ConcreteObserver) (z : Z) : list string :=
  match o with
  | ConcreteObserverA _ => if bool_decide (z < 3) then [reaction_A] else []
  | ConcreteObserverB _ =>
    if bool_decide (z = 0) || bool_decide (z >= 2) then [reaction_B] else []
  end.

(** The lines of one cycle of [some_business_logic] that draws [z] while
    the registry holds [os]. *)
Definition cycle_lines (z : Z) (os : list ConcreteObserver) : list string :=
  [(newline ++ "Subject: I'm doing something important.")%string;
   ("Subject: My state has just changed to: " ++ pretty z)%string;
   "Subject: Notifying observers..."]
  ++ flat_map (fun o => reaction_of o z) os.

(** * Properties *)

(** ** Removal of the first occurrence *)

Section ListRemove.
Context {A : Type} `{EqDecision A}.

Lemma list_remove_None (x : A) (l : list A) :
  list_remove x l = None <-> x ∉ l.
Proof.
  induction l as [|y l IH]; simpl.
  - split; [intros _; apply not_elem_of_nil | done].
  - destruct (decide (y = x)) as [->|Hne].
    + split; [done | intros Hn; exfalso; apply Hn; left].
    + rewrite fmap_None, IH, not_elem_of_cons. split; [intros ?; split; congruence | tauto].
Qed.

Lemma list_remove_Some (x : A) (l l' : list A) :
  list_remove x l = Some l' <->
  exists l1 l2, l = l1 ++ x :: l2 /\ (x ∉ l1) /\ l' = l1 ++ l2.
Proof.
  revert l'. induction l as [|y l IH]; intros l'; simpl.
  - split; [done | intros ([|? ?] & ? & ? & _); done].
  - destruct (decide (y = x)) as [->|Hne].
    + split.
      * intros [= <-]. exists [], l. split_and!; [done | apply not_elem_of_nil | done].
      * intros (l1 & l2 & Hl & Hn & ->). destruct l1 as [|z l1]; simpl in *.
        -- by injection Hl as ->.
        -- injection Hl as -> _. exfalso. apply Hn. left.
    + rewrite fmap_Some. split.
      * intros (l0 & Hl0 & ->). apply IH in Hl0 as (l1 & l2 & -> & Hn & ->).
        exists (y :: l1), l2. split_and!; [done | | done].
        rewrite not_elem_of_cons. split; [congruence | done].
      * intros (l1 & l2 & Hl & Hn & ->). destruct l1 as [|z l1]; simpl in *.
        -- injection Hl as -> _. done.
        -- injection Hl as -> ->. exists (l1 ++ l2). split; [|done].
           apply IH. exists l1, l2. rewrite not_elem_of_cons in Hn. tauto.
Qed.

Lemma list_remove_elem (x : A) (l : list A) :
  x ∈ l -> exists l1 l2,
    l = l1 ++ x :: l2 /\ (x ∉ l1) /\ list_remove x l = Some (l1 ++ l2).
Proof.
  intros Hin. destruct (list_remove x l) as [l'|] eqn:E.
  - apply list_remove_Some in E as (l1 & l2 & -> & Hn & ->). eauto.
  - apply list_remove_None in E. done.
Qed.

Lemma list_remove_snoc_fresh (x : A) (l : list A) :
  x ∉ l -> list_remove x (l ++ [x]) = Some l.
Proof.
  intros Hn. apply list_remove_Some. exists l, [].
  by rewrite app_nil_r.
Qed.

End ListRemove.

(** ** The subject, for any observers that honour the contract *)

Section SubjectFacts.
Context {Observer : Type} `{EqDecision Observer} {Rng : Type}.
Variable randrange : Z -> Z -> Rng -> Z * Rng.
Variable update : Observer -> Subject -> Heap Observer Rng -> Outcome Observer Rng.

Implicit Types (h : Heap Observer Rng) (self : Subject) (o : Observer).
Implicit Types (os : list Observer) (fuel i : nat).

Lemma state_subject_data self h h' :
  subject_data h = subject_data h' -> state self h = state self h'.
Proof. unfold subject_data, state. by intros [= _ ->]. Qed.

Lemma subject_data_print line h : subject_data (print line h) = subject_data h.
Proof. done. Qed.

(** *** The loop of [notify] *)

(** Whatever the fuel, the calls made are an initial stretch of the
    registry from the index on, and each shows the state of the start. *)
Lemma notify_loop_calls self :
  no_mutation update -> forall fuel i h,
  exists k, (notify_loop update fuel self i h).1
            = calls_to self (state self h) (take k (drop i (_observers h))).
Proof.
  intros Hnm. induction fuel as [|fuel IH]; intros i h; simpl.
  - by exists O.
  - destruct (_observers h !! i) as [o|] eqn:Ei; [|by exists O].
    rewrite (drop_S _ _ _ Ei).
    pose proof (Hnm o self h) as Hd.
    destruct (update o self h) as [h'|e h']; simpl in Hd.
    + destruct (IH (S i) h') as [k Hk].
      destruct (notify_loop update fuel self (S i) h') as [cs r]; simpl in *.
      exists (S k). rewrite Hk, (state_subject_data self _ _ Hd).
      injection Hd as -> _. done.
    + by exists 1%nat.
Qed.

(** With fuel beyond what is left of the registry the loop ends, and the
    subjects are as before. *)
Lemma notify_loop_ends self :
  no_mutation update -> forall fuel i h,
  (length (_observers h) - i < fuel)%nat ->
  exists out, (notify_loop update fuel self i h).2 = Some out
              /\ subject_data (heap_of out) = subject_data h.
Proof.
  intros Hnm. induction fuel as [|fuel IH]; intros i h Hf; simpl; [lia|].
  destruct (_observers h !! i) as [o|] eqn:Ei; [|by eexists].
  apply lookup_lt_Some in Ei.
  pose proof (Hnm o self h) as Hd.
  destruct (update o self h) as [h'|e h']; simpl in Hd; [|by eexists].
  destruct (IH (S i) h') as (out & Hout & Hd').
  { injection Hd as -> _. lia. }
  destruct (notify_loop update fuel self (S i) h') as [cs r]; simpl in *.
  exists out. split; [done | congruence].
Qed.

(** A loop that returns has called every observer from the index on. *)
Lemma notify_loop_Return self :
  no_mutation update -> forall fuel i h h',
  (notify_loop update fuel self i h).2 = Some (Return h') ->
  (notify_loop update fuel self i h).1
  = calls_to self (state self h) (drop i (_observers h)).
Proof.
  intros Hnm. induction fuel as [|fuel IH]; intros i h h'; simpl; [done|].
  destruct (_observers h !! i) as [o|] eqn:Ei.
  - rewrite (drop_S _ _ _ Ei).
    pose proof (Hnm o self h) as Hd.
    destruct (update o self h) as [h1|e h1]; simpl in Hd; [|done].
    specialize (IH (S i) h1 h').
    destruct (notify_loop update fuel self (S i) h1) as [cs r]; simpl in *.
    intros Hr. rewrite (IH Hr), (state_subject_data self _ _ Hd).
    injection Hd as -> _. done.
  - intros _. apply lookup_ge_None in Ei. by rewrite drop_ge.
Qed.

(** When no [update] raises, the loop returns. *)
Lemma notify_loop_returns self h0 :
  no_mutation update -> returns_normally update self h0 ->
  forall fuel i h, subject_data h = subject_data h0 ->
  (length (_observers h) - i < fuel)%nat ->
  exists h', (notify_loop update fuel self i h).2 = Some (Return h').
Proof.
  intros Hnm Hret. induction fuel as [|fuel IH]; intros i h Hh Hf; simpl; [lia|].
  destruct (_observers h !! i) as [o|] eqn:Ei; [|by eexists].
  assert (o ∈ _observers h0) as Hin.
  { injection Hh as <- _. by eapply list_elem_of_lookup_2. }
  apply lookup_lt_Some in Ei.
  destruct (Hret o h Hin Hh) as [h1 Hu].
  pose proof (Hnm o self h) as Hd. rewrite Hu in *. simpl in Hd.
  destruct (IH (S i) h1) as [h' Hr]; [congruence | injection Hd as -> _; lia |].
  destruct (notify_loop update fuel self (S i) h1) as [cs r]; simpl in *.
  by exists h'.
Qed.

Lemma calls_to_callee self v os : callee <$> calls_to self v os = os.
Proof.
  unfold calls_to. rewrite <- list_fmap_compose. apply list_fmap_id.
Qed.

Lemma calls_to_count self v os o :
  length (filter (fun c => callee c = o) (calls_to self v os))
  = length (filter (fun x => x = o) os).
Proof.
  induction os as [|x os IH]; [done|].
  unfold calls_to in *. rewrite fmap_cons, !filter_cons. simpl.
  destruct (decide (x = o)); simpl; by rewrite IH.
Qed.

Lemma calls_to_Forall self v os :
  Forall (fun c => arg c = self /\ seen c = v) (calls_to self v os).
Proof. unfold calls_to. apply Forall_fmap, Forall_true. done. Qed.

(** *** Subscription management *)

Lemma attach_all_Return self os h :
  exists h1, attach_all self os h = Return h1
             /\ _observers h1 = _observers h ++ os
             /\ _state h1 = _state h /\ random h1 = random h.
Proof.
  revert h. induction os as [|o os IH]; intros h; simpl.
  - exists h. by rewrite app_nil_r.
  - destruct (IH (set_observers (_observers h ++ [o])
                    (print "Subject: Attached an observer." h)))
      as (h1 & -> & Hl & Hs & Hr).
    exists h1. simpl in *. by rewrite Hl, <- app_assoc.
Qed.

(** *** Notification *)

Lemma notify_Return self h0 fuel h :
  no_mutation update -> returns_normally update self h0 ->
  subject_data h = subject_data h0 ->
  (length (_observers h) < fuel)%nat ->
  exists h', notify update fuel self h
             = (calls_to self (state self h) (_observers h), Some (Return h'))
             /\ subject_data h' = subject_data h.
Proof.
  intros Hnm Hret Hh Hf. unfold notify.
  set (hp := print "Subject: Notifying observers..." h).
  destruct (notify_loop_returns self h0 Hnm Hret fuel O hp) as [h' Hr];
    [done | simpl; lia |].
  pose proof (notify_loop_Return self Hnm fuel O hp h' Hr) as Hc.
  destruct (notify_loop_ends self Hnm fuel O hp) as (out & Ho & Hd); [simpl; lia|].
  exists h'. destruct (notify_loop update fuel self 0 hp) as [cs r]; simpl in *.
  subst r. injection Ho as <-. by rewrite Hc.
Qed.

(** C1 (as amended).  After any sequence of [attach] calls, [notify]
    calls [update] once per registry entry, in the order of attachment,
    so an observer attached twice is called twice, provided every
    [update] returns normally and leaves the subjects as they are. *)
Theorem notify_fifo self os h fuel :
  let h1 := heap_of (attach_all self os h) in
  no_mutation update -> returns_normally update self h1 ->
  (length (_observers h ++ os) < fuel)%nat ->
  attach_all self os h = Return h1 /\
  _observers h1 = _observers h ++ os /\
  (exists h', notify update fuel self h1
              = (calls_to self (state self h1) (_observers h ++ os),
                 Some (Return h'))) /\
  (forall o, length (filter (fun c => callee c = o)
                            (notify update fuel self h1).1)
             = length (filter (fun x => x = o) (_observers h ++ os))).
Proof.
  intros h1 Hnm Hret Hf. subst h1.
  destruct (attach_all_Return self os h) as (h1 & E & Hl & _). rewrite E in *.
  simpl in *. split; [done|]. split; [done|].
  destruct (notify_Return self h1 fuel h1 Hnm Hret eq_refl) as (h' & Hn & _);
    [rewrite Hl; lia|].
  rewrite Hl in Hn. split; [by exists h'|].
  intros o. rewrite Hn. apply calls_to_count.
Qed.

(** C2.  In the notify cycle of [some_business_logic], every call of
    [update] is handed the subject showing the value just drawn and
    assigned; with enough fuel the cycle ends, having called the
    registered observers in order up to the first exception, all of them
    when it returns; the state is still that value afterwards.
    Precondition: no observer mutates the subject. *)
Theorem cycle_shows_one_state self h fuel :
  no_mutation update ->
  (length (_observers h) < fuel)%nat ->
  let r := (randrange 0 10 (random h)).1 in
  exists cs out,
    some_business_logic randrange update fuel self h = (cs, Some out) /\
    Forall (fun c => arg c = self /\ seen c = Some r) cs /\
    (exists k, callee <$> cs = take k (_observers h)) /\
    (forall h', out = Return h' -> callee <$> cs = _observers h) /\
    state self (heap_of out) = Some r.
Proof.
  intros Hnm Hf r. subst r. unfold some_business_logic, notify.
  destruct (randrange 0 10 (random (print _ h))) as [r g] eqn:Er.
  simpl in Er. rewrite Er. simpl.
  set (hm := print "Subject: Notifying observers..." _).
  assert (state self hm = Some r) as Hs.
  { unfold state, hm. simpl. by rewrite lookup_insert_eq. }
  destruct (notify_loop_calls self Hnm fuel O hm) as [k Hk].
  destruct (notify_loop_ends self Hnm fuel O hm) as (out & Ho & Hd);
    [simpl; lia|].
  pose proof (notify_loop_Return self Hnm fuel O hm) as HR.
  destruct (notify_loop update fuel self 0 hm) as [cs ro]; simpl in *.
  subst ro. exists cs, out. rewrite Hs in *. split; [done|].
  split; [rewrite Hk; apply calls_to_Forall|].
  split; [exists k; by rewrite Hk, calls_to_callee|].
  split.
  - intros h' ->. rewrite (HR h' eq_refl). apply calls_to_callee.
  - by rewrite (state_subject_data self _ _ Hd).
Qed.

(** C7.  [some_business_logic] draws from [randrange(0, 10)], binds the
    draw to the state and only then runs [notify]; the draw is an integer
    of the half-open range from 0 to 10, by the contract of
    [randrange]. *)
Theorem business_logic_state_range self h fuel :
  (forall start stop g, start < stop ->
     start <= (randrange start stop g).1 < stop) ->
  let r := (randrange 0 10 (random h)).1 in
  0 <= r < 10 /\
  exists hm,
    some_business_logic randrange update fuel self h
    = notify update fuel self hm /\
    state self hm = Some r /\
    _observers hm = _observers h /\
    random hm = (randrange 0 10 (random h)).2.
Proof.
  intros Hrange r. split; [by apply Hrange|]. subst r.
  unfold some_business_logic. simpl.
  destruct (randrange 0 10 (random h)) as [r g]. simpl.
  eexists. split; [reflexivity|]. split; [|done].
  unfold state. simpl. by rewrite lookup_insert_eq.
Qed.

(** What [notify] calls is drawn from the registry, whatever the fuel. *)
Lemma notify_callee_registered self h fuel o :
  no_mutation update ->
  o ∈ callee <$> (notify update fuel self h).1 -> o ∈ _observers h.
Proof.
  intros Hnm. unfold notify.
  destruct (notify_loop_calls self Hnm fuel O
              (print "Subject: Notifying observers..." h)) as [k ->].
  rewrite calls_to_callee. simpl. apply subseteq_take.
Qed.

(** C8.  [attach], [detach] and [notify] leave every state as it was,
    the latter for observers that do not mutate the subject, and
    [notify] ends with enough fuel; the accessor [state] is a function of
    the store that reads the instance's own state, absent until one is
    bound, and absent for every instance when the program starts; the
    cycle of [some_business_logic] binds the state of its subject and of
    no other. *)
Theorem state_only_set_by_business_logic :
  no_mutation update ->
  (forall self o h, _state (heap_of (attach self o h)) = _state h) /\
  (forall self o h, _state (heap_of (detach self o h)) = _state h) /\
  (forall fuel self h, (length (_observers h) < fuel)%nat ->
     exists cs out, notify update fuel self h = (cs, Some out)
                    /\ _state (heap_of out) = _state h) /\
  (forall self h, state self h = _state h !! self) /\
  (forall self (g : Rng), state self (initial (Observer := Observer) g) = None) /\
  (forall fuel self h, (length (_observers h) < fuel)%nat ->
     exists cs out,
       some_business_logic randrange update fuel self h = (cs, Some out)
       /\ state self (heap_of out) = Some (randrange 0 10 (random h)).1
       /\ forall other, other <> self ->
            state other (heap_of out) = state other h).
Proof.
  intros Hnm. split_and!.
  - done.
  - intros self o h. unfold detach. by destruct (list_remove o (_observers h)).
  - intros fuel self h Hf. unfold notify.
    destruct (notify_loop_ends self Hnm fuel O
                (print "Subject: Notifying observers..." h))
      as (out & Ho & Hd); [simpl; lia|].
    destruct (notify_loop update fuel self 0 _) as [cs r]; simpl in *.
    subst r. exists cs, out. split; [done|]. by injection Hd.
  - intros self h. unfold state, class_state. by destruct (_state h !! self).
  - done.
  - intros fuel self h Hf. unfold some_business_logic, notify. simpl.
    destruct (randrange 0 10 (random h)) as [r g]. simpl.
    set (hm := print "Subject: Notifying observers..." _).
    destruct (notify_loop_ends self Hnm fuel O hm) as (out & Ho & Hd);
      [simpl; lia|].
    destruct (notify_loop update fuel self 0 hm) as [cs ro]; simpl in *.
    subst ro. exists cs, out. split; [done|]. split.
    + rewrite (state_subject_data self _ _ Hd). unfold state, hm. simpl.
      by rewrite lookup_insert_eq.
    + intros other Hne.
      rewrite (state_subject_data other _ _ Hd). unfold state, hm. simpl.
      by rewrite lookup_insert_ne.
Qed.

(** C4 (as amended).  [detach] of a registered observer removes its
    earliest occurrence and nothing else; when that was its only
    occurrence, no later [notify] on that registry calls its [update]
    (for observers that do not mutate the subject). *)
Theorem detach_removes_earliest self o h :
  no_mutation update -> o ∈ _observers h ->
  exists l1 l2 h',
    _observers h = l1 ++ o :: l2 /\ (o ∉ l1) /\
    detach self o h = Return h' /\
    _observers h' = l1 ++ l2 /\ _state h' = _state h /\
    ((o ∉ l2) -> forall fuel s h'', _observers h'' = _observers h' ->
       o ∉ callee <$> (notify update fuel s h'').1).
Proof.
  intros Hnm Hin.
  destruct (list_remove_elem o (_observers h) Hin) as (l1 & l2 & Hl & Hn & Hr).
  exists l1, l2, (set_observers (l1 ++ l2) h). unfold detach. rewrite Hr.
  split_and!; try done.
  intros Hn2 fuel s h'' Hreg Hc.
  apply (notify_callee_registered _ _ _ _ Hnm) in Hc.
  rewrite Hreg in Hc. simpl in Hc. apply elem_of_app in Hc. tauto.
Qed.

(** C5.  [detach] of an observer that is not registered raises the
    not-found error of [list.remove] and leaves the store, hence the
    registry and the states, as it was. *)
Theorem detach_absent_raises self o h :
  o ∉ _observers h ->
  detach self o h = Raise ValueError h /\
  _observers (heap_of (detach self o h)) = _observers h /\
  _state (heap_of (detach self o h)) = _state h.
Proof.
  intros Hn. apply list_remove_None in Hn. unfold detach. by rewrite Hn.
Qed.

(** C10.  [attach] followed by [detach] of the same observer always
    returns; it restores the registry when the observer was not
    registered before; when it was, its earliest occurrence has moved to
    the end, which for a registry that starts with the observer followed
    by another one is a different registry. *)
Theorem attach_detach_roundtrip self o h :
  exists h1 h2,
    attach self o h = Return h1 /\ detach self o h1 = Return h2 /\
    _state h2 = _state h /\
    ((o ∉ _observers h) -> _observers h2 = _observers h) /\
    (forall l1 l2, _observers h = l1 ++ o :: l2 -> (o ∉ l1) ->
       _observers h2 = l1 ++ l2 ++ [o]) /\
    (forall b l, b <> o -> _observers h = o :: b :: l ->
       _observers h2 <> _observers h).
Proof.
  unfold attach, detach. cbn [print set_observers _observers].
  assert (o ∈ _observers h ++ [o]) as Hin.
  { apply elem_of_app. right. left. }
  destruct (list_remove_elem _ _ Hin) as (k1 & k2 & Hk & Hnk & Hr).
  do 2 eexists. split; [reflexivity|]. cbn [print set_observers _observers].
  rewrite Hr. split; [reflexivity|]. cbn [set_observers _observers _state].
  split; [done|]. split_and!.
  - intros Hn. pose proof (list_remove_snoc_fresh o _ Hn) as Hr'. congruence.
  - intros l1 l2 Hl Hn1.
    assert (list_remove o (_observers h ++ [o]) = Some (l1 ++ l2 ++ [o])) as Hr'.
    { apply list_remove_Some. exists l1, (l2 ++ [o]).
      rewrite Hl, <- app_assoc. done. }
    congruence.
  - intros b l Hb Hl.
    assert (list_remove o (_observers h ++ [o]) = Some (b :: l ++ [o])) as Hr'.
    { rewrite Hl. simpl. by rewrite decide_True. }
    rewrite Hl. congruence.
Qed.

End SubjectFacts.

(** ** The observers of [main] *)

Section ConcreteObservers.
Context {Rng : Type}.
Implicit Types (h : Heap ConcreteObserver Rng) (subject : Subject).

Lemma ConcreteObserverA_update_data subject h :
  subject_data (heap_of (ConcreteObserverA_update subject h)) = subject_data h.
Proof.
  unfold ConcreteObserverA_update.
  destruct (py_lt (state subject h) 3) as [e|[|]]; done.
Qed.

Lemma ConcreteObserverB_update_data subject h :
  subject_data (heap_of (ConcreteObserverB_update subject h)) = subject_data h.
Proof.
  unfold ConcreteObserverB_update.
  destruct (py_eq (state subject h) 0); [done|].
  destruct (py_ge (state subject h) 2) as [e|[|]]; done.
Qed.

(** Both observers honour the contract: they read and print. *)
Lemma update_no_mutation : no_mutation (update (Rng := Rng)).
Proof.
  intros [id|id] s h; simpl;
    [apply ConcreteObserverA_update_data | apply ConcreteObserverB_update_data].
Qed.

Lemma update_Return o subject h :
  is_Some (state subject h) -> exists h', update o subject h = Return h'.
Proof.
  intros [z Hz]. destruct o as [id|id]; simpl;
    unfold ConcreteObserverA_update, ConcreteObserverB_update; rewrite Hz; simpl.
  - destruct (bool_decide (z < 3)); eauto.
  - destruct (bool_decide (z = 0)); [eauto|].
    destruct (bool_decide (z >= 2)); eauto.
Qed.

(** They return normally on a subject whose state is bound. *)
Lemma update_returns_normally subject h0 :
  is_Some (state subject h0) -> returns_normally update subject h0.
Proof.
  intros Hs o h _ Hd. apply update_Return.
  by rewrite (state_subject_data subject h h0 Hd).
Qed.

End ConcreteObservers.

Lemma scripted_randrange_range start stop g :
  start < stop -> start <= (scripted_randrange start stop g).1 < stop.
Proof.
  intros Hlt. destruct g as [|x g]; simpl; [lia|].
  pose proof (Z.mod_pos_bound x (stop - start)). lia.
Qed.

(** C6.  [ConcreteObserverA.update] prints its reaction exactly when the
    state is an integer below 3, [ConcreteObserverB.update] exactly when
    it is 0 or at least 2, and neither prints anything else.  With both
    attached and the draw forced: 1 makes A react alone, 0 makes both
    react, 5 makes B react alone; with A detached and the draw forced to
    2, B is the only observer called and the only one to react. *)
Theorem observers_react :
  (forall Rng subject (h : Heap ConcreteObserver Rng),
     (reacts reaction_A h (ConcreteObserverA_update subject h)
      <-> exists z, state subject h = Some z /\ z < 3) /\
     (~ reacts reaction_A h (ConcreteObserverA_update subject h)
      -> silent h (ConcreteObserverA_update subject h)) /\
     (reacts reaction_B h (ConcreteObserverB_update subject h)
      <-> exists z, state subject h = Some z /\ (z = 0 \/ z >= 2)) /\
     (~ reacts reaction_B h (ConcreteObserverB_update subject h)
      -> silent h (ConcreteObserverB_update subject h))) /\
  (let both := call (attach_all 0%nat [observer_a; observer_b]) in
   let run1 := forced_cycle both 1 0%nat in
   let run2 := forced_cycle both 0 0%nat in
   let run3 := forced_cycle both 5 0%nat in
   let run4 := forced_cycle
                 (fun h => both h >>> call (detach 0%nat observer_a)) 2 0%nat in
   (callee <$> run1.1 = [observer_a; observer_b] /\ reactions run1 = [reaction_A]) /\
   (callee <$> run2.1 = [observer_a; observer_b]
    /\ reactions run2 = [reaction_A; reaction_B]) /\
   (callee <$> run3.1 = [observer_a; observer_b] /\ reactions run3 = [reaction_B]) /\
   (callee <$> run4.1 = [observer_b] /\ reactions run4 = [reaction_B])).
Proof.
  split; [|by vm_compute].
  intros Rng subject h.
  unfold reacts, silent, ConcreteObserverA_update, ConcreteObserverB_update.
  destruct (state subject h) as [z|]; simpl.
  - split_and!.
    + case_bool_decide as Hz.
      * split; [intros _; eauto | intros _; eexists; split; done].
      * split; [|intros (? & [= <-] & ?); done].
        intros (h' & [= <-] & Hp). apply (f_equal length) in Hp.
        rewrite length_app in Hp. simpl in Hp. lia.
    + case_bool_decide; [|done].
      intros Hn. exfalso. apply Hn. eexists. split; done.
    + case_bool_decide as H0; [|case_bool_decide as H2].
      * split; [intros _; eauto | intros _; eexists; split; done].
      * split; [intros _; eauto | intros _; eexists; split; done].
      * split; [|intros (? & [= <-] & [?|?]); done].
        intros (h' & [= <-] & Hp). apply (f_equal length) in Hp.
        rewrite length_app in Hp. simpl in Hp. lia.
    + case_bool_decide; [|case_bool_decide; [|done]];
        intros Hn; exfalso; apply Hn; eexists; split; done.
  - split_and!; try done.
    + split; [intros (? & [=] & _) | intros (? & [=] & _)].
    + split; [intros (? & [=] & _) | intros (? & [=] & _)].
Qed.

(** C9 (as amended).  On a subject whose state is absent, [update] of
    either observer raises the type error of an ordering comparison with
    [None] and leaves the store as it was; the test [== 0] of B is false
    there without an error.  On a subject whose state is an integer both
    return normally. *)
Theorem update_on_absent_state Rng subject (h : Heap ConcreteObserver Rng) :
  (state subject h = None ->
     py_eq (state subject h) 0 = false /\
     ConcreteObserverA_update subject h = Raise TypeError h /\
     ConcreteObserverB_update subject h = Raise TypeError h) /\
  (is_Some (state subject h) ->
     (exists h', ConcreteObserverA_update subject h = Return h') /\
     (exists h', ConcreteObserverB_update subject h = Return h')).
Proof.
  split.
  - intros Hs. unfold ConcreteObserverA_update, ConcreteObserverB_update.
    by rewrite Hs.
  - intros Hs. split.
    + apply (update_Return (ConcreteObserverA 0) subject h Hs).
    + apply (update_Return (ConcreteObserverB 0) subject h Hs).
Qed.

Lemma update_on_absent_state_witness :
  let h0 : Heap ConcreteObserver (list Z) := initial [] in
  let h1 : Heap ConcreteObserver (list Z) := set_state 0%nat 4 (initial []) in
  (py_eq (state 0%nat h0) 0 = false /\
   ConcreteObserverA_update 0%nat h0 = Raise TypeError h0 /\
   ConcreteObserverB_update 0%nat h0 = Raise TypeError h0) /\
  ((exists h', ConcreteObserverA_update 0%nat h1 = Return h') /\
   (exists h', ConcreteObserverB_update 0%nat h1 = Return h')).
Proof.
  intros h0 h1. split.
  - apply (update_on_absent_state (list Z) 0%nat h0). reflexivity.
  - apply (update_on_absent_state (list Z) 0%nat h1). vm_compute. eauto.
Defined.

(** C9, the claim as stated fails: when the program has just started, the
    state of the subject is absent and [update] of A, and of B, ends in a
    type error. *)
Lemma update_raises_before_first_mutation :
  let h : Heap ConcreteObserver (list Z) := initial [] in
  state 0%nat h = None /\
  ConcreteObserverA_update 0%nat h = Raise TypeError h /\
  ConcreteObserverB_update 0%nat h = Raise TypeError h.
Proof. by vm_compute. Qed.

(** C1, the claim as stated fails: with A and B attached to a subject
    whose state is still absent, [notify] calls [update] of A, which
    raises, and never reaches B: one call for a registry of two. *)
Lemma notify_stops_at_exception :
  let run := call (attach_all 0%nat [observer_a; observer_b]) (initial [])
             >>> notify (Rng := list Z) update 8 0%nat in
  run.1 = [mkCall observer_a 0%nat None] /\
  exists h, run.2 = Some (Raise TypeError h)
            /\ _observers h = [observer_a; observer_b].
Proof. vm_compute. split; [done|]. eexists. split; done. Qed.

(** C4, the claim as stated fails: an observer attached twice is still
    registered after one [detach], and the next [notify] calls it. *)
Lemma detach_leaves_second_occurrence :
  exists h h',
    (call (attach_all 0%nat [observer_a; observer_a]) (initial [1])
     >>> some_business_logic scripted_randrange update 8 0%nat).2
    = Some (Return h) /\
    observer_a ∈ _observers h /\
    detach 0%nat observer_a h = Return h' /\
    (notify update 8 0%nat h').1 = [mkCall observer_a 0%nat (Some 1)].
Proof.
  vm_compute. do 2 eexists. split; [reflexivity|].
  split; [left|]. split; reflexivity.
Qed.

(** C3, on the code: the list of observers belongs to the class.  An
    observer attached through subject 0 is called when subject 1, to
    which nothing was ever attached, runs its cycle, and subject 1 can
    detach it. *)
Theorem registry_shared_between_instances :
  (call (attach 0%nat observer_a) (initial [1])
   >>> some_business_logic scripted_randrange update 8 1%nat).1
  = [mkCall observer_a 1%nat (Some 1)] /\
  (exists h, (call (attach 0%nat observer_a) (initial ([] : list Z))
              >>> call (detach 1%nat observer_a)).2 = Some (Return h)
             /\ _observers h = []).
Proof. vm_compute. split; [done|]. eexists. split; done. Qed.

(** ** The theorems at concrete inputs *)

Lemma notify_fifo_witness :
  let h : Heap ConcreteObserver (list Z) := set_state 0%nat 1 (initial []) in
  let os := [observer_a; observer_b; observer_a] in
  let h1 := heap_of (attach_all 0%nat os h) in
  (no_mutation (update (Rng := list Z)) /\
   returns_normally update 0%nat h1 /\
   (length (_observers h ++ os) < 8)%nat) /\
  (exists h', notify update 8 0%nat h1
              = (calls_to 0%nat (state 0%nat h1) (_observers h ++ os),
                 Some (Return h'))) /\
  length (filter (fun c => callee c = observer_a) (notify update 8 0%nat h1).1)
  = 2%nat.
Proof.
  intros h os h1.
  assert (no_mutation (update (Rng := list Z))) as Hnm
    by apply update_no_mutation.
  assert (returns_normally update 0%nat h1) as Hret.
  { apply update_returns_normally. vm_compute. eauto. }
  assert (length (_observers h ++ os) < 8)%nat as Hf by (vm_compute; lia).
  destruct (notify_fifo update 0%nat os h 8 Hnm Hret Hf) as (_ & _ & Hn & Hc).
  split; [done|]. split; [exact Hn|]. exact (eq_trans (Hc observer_a) eq_refl).
Defined.

Lemma cycle_shows_one_state_witness :
  let h : Heap ConcreteObserver (list Z) :=
    heap_of (attach_all 0%nat [observer_a; observer_b] (initial [7])) in
  (no_mutation (update (Rng := list Z)) /\ (length (_observers h) < 8)%nat) /\
  exists cs out,
    some_business_logic scripted_randrange update 8 0%nat h = (cs, Some out) /\
    Forall (fun c => arg c = 0%nat /\ seen c = Some 7) cs /\
    (exists k, callee <$> cs = take k (_observers h)) /\
    (forall h', out = Return h' -> callee <$> cs = _observers h) /\
    state 0%nat (heap_of out) = Some 7.
Proof.
  intros h.
  assert (no_mutation (update (Rng := list Z))) as Hnm
    by apply update_no_mutation.
  assert (length (_observers h) < 8)%nat as Hf by (vm_compute; lia).
  split; [done|].
  exact (cycle_shows_one_state scripted_randrange update 0%nat h 8 Hnm Hf).
Defined.

Lemma business_logic_state_range_witness :
  let h : Heap ConcreteObserver (list Z) := initial [23] in
  let r := (scripted_randrange 0 10 (random h)).1 in
  r = 3 /\ 0 <= r < 10 /\
  exists hm,
    some_business_logic scripted_randrange update 8 0%nat h
    = notify update 8 0%nat hm /\
    state 0%nat hm = Some r /\
    _observers hm = _observers h /\
    random hm = (scripted_randrange 0 10 (random h)).2.
Proof.
  intros h r. split; [reflexivity|].
  exact (business_logic_state_range scripted_randrange update 0%nat h 8
           scripted_randrange_range).
Defined.

Lemma state_only_set_by_business_logic_witness :
  let h : Heap ConcreteObserver (list Z) :=
    set_state 0%nat 4 (heap_of (attach_all 0%nat [observer_a; observer_b]
                                  (initial [6]))) in
  no_mutation (update (Rng := list Z)) /\
  _state (heap_of (attach 0%nat observer_b h)) = _state h /\
  _state (heap_of (detach 0%nat observer_b h)) = _state h /\
  (exists cs out, notify update 8 0%nat h = (cs, Some out)
                  /\ _state (heap_of out) = _state h) /\
  state 0%nat h = Some 4 /\
  state 0%nat (initial (Observer := ConcreteObserver) [6]) = None /\
  (exists cs out,
     some_business_logic scripted_randrange update 8 0%nat h = (cs, Some out)
     /\ state 0%nat (heap_of out) = Some 6).
Proof.
  intros h.
  assert (no_mutation (update (Rng := list Z))) as Hnm
    by apply update_no_mutation.
  destruct (state_only_set_by_business_logic scripted_randrange update Hnm)
    as (Ha & Hd & Hn & Hs & Hi & Hb).
  assert (length (_observers h) < 8)%nat as Hf by (vm_compute; lia).
  split; [done|]. split; [apply Ha|]. split; [apply Hd|].
  split; [apply (Hn 8%nat 0%nat h Hf)|].
  split; [rewrite Hs; reflexivity|]. split; [apply Hi|].
  destruct (Hb 8%nat 0%nat h Hf) as (cs & out & E & Hst & _).
  exists cs, out. split; [exact E | exact Hst].
Defined.

Lemma detach_removes_earliest_witness :
  let h : Heap ConcreteObserver (list Z) :=
    set_state 0%nat 2
      (heap_of (attach_all 0%nat [observer_b; observer_a; observer_b] (initial []))) in
  (no_mutation (update (Rng := list Z)) /\ observer_a ∈ _observers h) /\
  exists h', detach 0%nat observer_a h = Return h' /\
             _observers h' = [observer_b; observer_b] /\
             observer_a ∉ callee <$> (notify update 8 0%nat h').1.
Proof.
  intros h.
  assert (no_mutation (update (Rng := list Z))) as Hnm
    by apply update_no_mutation.
  assert (observer_a ∈ _observers h) as Hin by (right; left).
  split; [done|].
  destruct (detach_removes_earliest update 0%nat observer_a h Hnm Hin)
    as (l1 & l2 & h' & Hl & Hn1 & Hd & Hreg & _ & Hnever).
  exists h'. split; [exact Hd|].
  assert (h' = set_observers [observer_b; observer_b] h) as Hh'.
  { vm_compute in Hd. injection Hd as <-. reflexivity. }
  split; [by rewrite Hh'|].
  apply Hnever; [|reflexivity].
  intros Hin2. assert (observer_a ∈ _observers h') as Hin'.
  { rewrite Hreg. apply elem_of_app. by right. }
  rewrite Hh' in Hin'. simpl in Hin'.
  apply elem_of_cons in Hin' as [Hab|Hin']; [discriminate Hab|].
  apply elem_of_cons in Hin' as [Hab|Hin']; [discriminate Hab|].
  by apply not_elem_of_nil in Hin'.
Defined.

Lemma detach_absent_raises_witness :
  let h : Heap ConcreteObserver (list Z) :=
    heap_of (attach 0%nat observer_a (initial [])) in
  (observer_b ∉ _observers h) /\
  detach 0%nat observer_b h = Raise ValueError h /\
  _observers (heap_of (detach 0%nat observer_b h)) = _observers h /\
  _state (heap_of (detach 0%nat observer_b h)) = _state h.
Proof.
  intros h.
  assert (observer_b ∉ _observers h) as Hn.
  { simpl. intros Hin. apply elem_of_cons in Hin as [Hab|Hin]; [discriminate Hab|].
    by apply not_elem_of_nil in Hin. }
  split; [exact Hn|]. exact (detach_absent_raises 0%nat observer_b h Hn).
Defined.

Lemma attach_detach_roundtrip_witness :
  let h : Heap ConcreteObserver (list Z) :=
    heap_of (attach_all 0%nat [observer_a; observer_b] (initial [])) in
  (exists h1 h2, attach 0%nat observer_a h = Return h1
                 /\ detach 0%nat observer_a h1 = Return h2
                 /\ _observers h2 = [observer_b; observer_a]
                 /\ _observers h2 <> _observers h) /\
  (exists h1 h2, attach 0%nat (ConcreteObserverA 1) h = Return h1
                 /\ detach 0%nat (ConcreteObserverA 1) h1 = Return h2
                 /\ _observers h2 = _observers h).
Proof.
  intros h. split.
  - destruct (attach_detach_roundtrip 0%nat observer_a h)
      as (h1 & h2 & Ha & Hd & _ & _ & Hmove & Hne).
    exists h1, h2. split; [exact Ha|]. split; [exact Hd|]. split.
    + apply (Hmove [] [observer_b]); [reflexivity | apply not_elem_of_nil].
    + apply (Hne observer_b []); [discriminate | reflexivity].
  - destruct (attach_detach_roundtrip 0%nat (ConcreteObserverA 1) h)
      as (h1 & h2 & Ha & Hd & _ & Hrestore & _).
    exists h1, h2. split; [exact Ha|]. split; [exact Hd|].
    apply Hrestore. simpl. intros Hin.
    apply elem_of_cons in Hin as [Hab|Hin]; [discriminate Hab|].
    apply elem_of_cons in Hin as [Hab|Hin]; [discriminate Hab|].
    by apply not_elem_of_nil in Hin.
Defined.

(** [main] with the draws 1, 0 and 2: five calls of [update], no
    exception, and B alone left in the registry. *)
Example main_run :
  let run := main 8 0%nat (initial [1; 0; 2]) in
  run.1 = [mkCall observer_a 0%nat (Some 1); mkCall observer_b 0%nat (Some 1);
           mkCall observer_a 0%nat (Some 0); mkCall observer_b 0%nat (Some 0);
           mkCall observer_b 0%nat (Some 2)] /\
  reactions run = [reaction_A; reaction_A; reaction_B; reaction_B] /\
  exists h, run.2 = Some (Return h) /\ _observers h = [observer_b].
Proof. vm_compute. split_and!; [done | done |]. eexists. split; done. Qed.

(** * Further properties of the subject *)

Lemma list_remove_app_l {A} `{EqDecision A} (x : A) (l k : list A) :
  x ∈ l -> list_remove x (l ++ k) = (fun l' => l' ++ k) <$> list_remove x l.
Proof.
  induction l as [|y l IH]; intros Hin; [by apply not_elem_of_nil in Hin|].
  simpl. destruct (decide (y = x)) as [->|Hne]; [done|].
  apply elem_of_cons in Hin as [->|Hin]; [done|].
  rewrite (IH Hin). by destruct (list_remove x l).
Qed.

Lemma list_remove_count {A} `{EqDecision A} (x y : A) (l l' : list A) :
  list_remove x l = Some l' ->
  length (filter (fun z => z = y) l)
  = (length (filter (fun z => z = y) l') + (if decide (x = y) then 1 else 0))%nat.
Proof.
  intros Hr. apply list_remove_Some in Hr as (l1 & l2 & -> & _ & ->).
  rewrite !filter_app, filter_cons, !length_app.
  destruct (decide (x = y)); simpl; lia.
Qed.

Section SubjectComposition.
Context {Observer : Type} `{EqDecision Observer} {Rng : Type}.
Variable update : Observer -> Subject -> Heap Observer Rng -> Outcome Observer Rng.

Implicit Types (h : Heap Observer Rng) (self : Subject) (o a b : Observer).

(** X1.  [attach] and [detach] commute when the observer to detach is
    registered: either order returns normally and leaves the same store,
    also when both calls name the same observer, and whichever instances
    they go through. *)
Theorem attach_detach_commute self1 self2 a b h :
  b ∈ _observers h ->
  call (attach self1 a) h >>> call (detach self2 b)
  = call (detach self2 b) h >>> call (attach self1 a)
  /\ exists h', call (detach self2 b) h >>> call (attach self1 a)
                = ([], Some (Return h')).
Proof.
  intros Hin. unfold call, and_then, attach, detach.
  cbn [print set_observers _observers _state random stdout].
  rewrite (list_remove_app_l b _ [a] Hin).
  destruct (list_remove_elem b _ Hin) as (l1 & l2 & _ & _ & ->).
  simpl. split; [done | by eexists].
Qed.

(** The loop up to the first observer whose [update] raises. *)
Lemma notify_loop_raises self h0 l1 o l2 e :
  no_mutation update ->
  _observers h0 = l1 ++ o :: l2 ->
  (forall x h, x ∈ l1 -> subject_data h = subject_data h0 ->
     exists h', update x self h = Return h') ->
  (forall h, subject_data h = subject_data h0 ->
     exists h', update o self h = Raise e h') ->
  forall fuel i h,
    subject_data h = subject_data h0 ->
    (i <= length l1)%nat -> (length l1 - i < fuel)%nat ->
    exists h', notify_loop update fuel self i h
               = (calls_to self (state self h0) (drop i (l1 ++ [o])),
                  Some (Raise e h'))
               /\ subject_data h' = subject_data h0.
Proof.
  intros Hnm Hreg Hok Hbad.
  induction fuel as [|fuel IH]; intros i h Hh Hi Hf; simpl; [lia|].
  assert (_observers h = l1 ++ o :: l2) as Hl by (injection Hh as -> _; done).
  rewrite (state_subject_data self h h0 Hh).
  destruct (decide (i = length l1)) as [->|Hne].
  - rewrite Hl, list_lookup_middle by done.
    destruct (Hbad h Hh) as [h' Hu]. rewrite Hu.
    pose proof (Hnm o self h) as Hd. rewrite Hu in Hd. simpl in Hd.
    exists h'. rewrite drop_app_length. split; [done | congruence].
  - assert (i < length l1)%nat as Hlt by lia.
    destruct (lookup_lt_is_Some_2 l1 i Hlt) as [x Hx].
    rewrite Hl, lookup_app_l, Hx by done.
    assert (x ∈ l1) as Hin by (by eapply list_elem_of_lookup_2).
    destruct (Hok x h Hin Hh) as [h1 Hu]. rewrite Hu.
    pose proof (Hnm x self h) as Hd. rewrite Hu in Hd. simpl in Hd.
    destruct (IH (S i) h1) as (h' & -> & Hd'); [congruence | lia | lia |].
    exists h'. split; [|done].
    rewrite (drop_S (l1 ++ [o]) x i); [done|].
    by rewrite lookup_app_l.
Qed.

(** X2.  An exception of [update] ends [notify]: when the observers ahead
    of [o] in the registry return normally and [update] of [o] raises
    [e], [notify] raises [e], having called exactly those observers and
    [o], in order; the observers behind [o] are not called, and the
    subjects are as before. *)
Theorem notify_raises_at_first_failure self h l1 o l2 e fuel :
  no_mutation update ->
  _observers h = l1 ++ o :: l2 ->
  (forall x h1, x ∈ l1 -> subject_data h1 = subject_data h ->
     exists h', update x self h1 = Return h') ->
  (forall h1, subject_data h1 = subject_data h ->
     exists h', update o self h1 = Raise e h') ->
  (length l1 < fuel)%nat ->
  exists h', notify update fuel self h
             = (calls_to self (state self h) (l1 ++ [o]), Some (Raise e h'))
             /\ subject_data h' = subject_data h.
Proof.
  intros Hnm Hreg Hok Hbad Hf. unfold notify.
  destruct (notify_loop_raises self h l1 o l2 e Hnm Hreg Hok Hbad fuel O
              (print "Subject: Notifying observers..." h))
    as (h' & E & Hd); [done | lia | lia |].
  exists h'. by rewrite E.
Qed.

(** X3.  [notify] does not use up the registry: with observers that
    return normally and do not mutate the subject, a second [notify]
    makes the same calls as the first, in the same order. *)
Theorem notify_repeatable self h fuel :
  no_mutation update -> returns_normally update self h ->
  (length (_observers h) < fuel)%nat ->
  let cs := calls_to self (state self h) (_observers h) in
  exists h', notify update fuel self h >>> notify update fuel self
             = (cs ++ cs, Some (Return h'))
             /\ subject_data h' = subject_data h.
Proof.
  intros Hnm Hret Hf cs. subst cs.
  destruct (notify_Return update self h fuel h Hnm Hret eq_refl Hf)
    as (h1 & E1 & Hd1).
  assert (length (_observers h1) < fuel)%nat as Hf1
    by (injection Hd1 as -> _; done).
  destruct (notify_Return update self h fuel h1 Hnm Hret Hd1 Hf1)
    as (h2 & E2 & Hd2).
  exists h2. unfold and_then. rewrite E1, E2.
  rewrite (state_subject_data self h1 h Hd1).
  split; [|congruence]. injection Hd1 as -> _. done.
Qed.

End SubjectComposition.

(** * Further properties of the observers and of [main] *)

Section ConcreteRuns.
Context {Rng : Type}.
Implicit Types (h : Heap ConcreteObserver Rng) (self subject : Subject).
Implicit Types (o : ConcreteObserver) (z : Z).

(** On an integer state [update] returns, having printed its reaction or
    nothing, and touches nothing else. *)
Lemma update_integer o subject h z :
  state subject h = Some z ->
  exists h', update o subject h = Return h'
             /\ subject_data h' = subject_data h
             /\ random h' = random h
             /\ stdout h' = stdout h ++ reaction_of o z.
Proof.
  intros Hz. destruct o as [id|id]; simpl;
    unfold ConcreteObserverA_update, ConcreteObserverB_update; rewrite Hz; simpl.
  - destruct (bool_decide (z < 3)); eexists; split; try done.
    by rewrite app_nil_r.
  - destruct (bool_decide (z = 0)); simpl; [eexists; split; done|].
    destruct (bool_decide (z >= 2)); eexists; split; try done.
    by rewrite app_nil_r.
Qed.

Lemma notify_loop_integer self z :
  forall fuel i h,
    state self h = Some z ->
    (length (_observers h) - i < fuel)%nat ->
    exists h', notify_loop update fuel self i h
               = (calls_to self (Some z) (drop i (_observers h)),
                  Some (Return h'))
               /\ subject_data h' = subject_data h
               /\ random h' = random h
               /\ stdout h' = stdout h
                              ++ flat_map (fun o => reaction_of o z)
                                          (drop i (_observers h)).
Proof.
  induction fuel as [|fuel IH]; intros i h Hz Hf; simpl; [lia|].
  destruct (_observers h !! i) as [o|] eqn:Ei.
  - rewrite (drop_S _ _ _ Ei), Hz.
    destruct (update_integer o self h z Hz) as (h1 & -> & Hd & Hr & Ho).
    apply lookup_lt_Some in Ei.
    assert (_observers h1 = _observers h) as Hl by (by injection Hd).
    destruct (IH (S i) h1) as (h' & -> & Hd' & Hr' & Ho').
    { by rewrite (state_subject_data self h1 h Hd). }
    { rewrite Hl. lia. }
    exists h'. rewrite Hl in *. split; [done|].
    split; [congruence|]. split; [congruence|].
    rewrite Ho', Ho. simpl. by rewrite app_assoc.
  - apply lookup_ge_None in Ei. rewrite drop_ge by done.
    exists h. simpl. by rewrite app_nil_r.
Qed.

(** A cycle with the observers of [main], in full. *)
Lemma cycle_integer (randrange : Z -> Z -> Rng -> Z * Rng) self h fuel :
  (length (_observers h) < fuel)%nat ->
  let z := (randrange 0 10 (random h)).1 in
  exists h',
    some_business_logic randrange update fuel self h
    = (calls_to self (Some z) (_observers h), Some (Return h')) /\
    _observers h' = _observers h /\
    _state h' = <[self := z]> (_state h) /\
    random h' = (randrange 0 10 (random h)).2 /\
    stdout h' = stdout h ++ cycle_lines z (_observers h).
Proof.
  intros Hf z. subst z. unfold some_business_logic, notify. simpl.
  destruct (randrange 0 10 (random h)) as [z g]. simpl.
  set (hm := print "Subject: Notifying observers..." _).
  assert (state self hm = Some z) as Hz.
  { unfold state, hm. simpl. by rewrite lookup_insert_eq. }
  destruct (notify_loop_integer self z fuel O hm Hz) as (h' & E & Hd & Hr & Ho);
    [simpl; lia|].
  exists h'. rewrite E. injection Hd as Hl Hs. simpl in *.
  split; [done|]. split; [done|]. split; [done|]. split; [done|].
  rewrite Ho. unfold cycle_lines. by rewrite <- !app_assoc.
Qed.

(** X4.  With the observers of [main], a cycle of [some_business_logic]
    always returns normally, whatever [randrange] draws: it calls every
    registered observer once, in registry order, each seeing the draw;
    it leaves the registry as it was, binds the draw to the state of its
    subject, advances the generator once, and prints its two lines, the
    line of [notify] and then the reactions in registry order. *)
Theorem cycle_output (randrange : Z -> Z -> Rng -> Z * Rng) self h fuel :
  (length (_observers h) < fuel)%nat ->
  let z := (randrange 0 10 (random h)).1 in
  exists h',
    some_business_logic randrange update fuel self h
    = (calls_to self (Some z) (_observers h), Some (Return h')) /\
    _observers h' = _observers h /\
    _state h' = <[self := z]> (_state h) /\
    random h' = (randrange 0 10 (random h)).2 /\
    stdout h' = stdout h ++ cycle_lines z (_observers h).
Proof.
  intros Hf z.
  destruct (cycle_integer randrange self h fuel Hf) as (h' & E & Hrest).
  exists h'. split; [exact E | exact Hrest].
Qed.

(** X5.  [notify] on a subject whose state is still absent: with an empty
    registry it prints its line and returns; with any other registry it
    calls the first observer only and raises the type error of that
    observer's comparison, the store having gained just the line of
    [notify]. *)
Theorem notify_before_first_mutation self h fuel :
  state self h = None -> (0 < fuel)%nat ->
  notify update fuel self h
  = match _observers h with
    | [] => ([], Some (Return (print "Subject: Notifying observers..." h)))
    | o :: _ => ([mkCall o self None],
                 Some (Raise TypeError (print "Subject: Notifying observers..." h)))
    end.
Proof.
  intros Hs Hf. destruct fuel as [|fuel]; [lia|].
  unfold notify. simpl. destruct (_observers h) as [|o l]; [done|]. simpl.
  assert (state self (print "Subject: Notifying observers..." h) = None) as Hs'
    by exact Hs.
  rewrite Hs'.
  destruct o as [id|id]; simpl;
    unfold ConcreteObserverA_update, ConcreteObserverB_update; by rewrite Hs'.
Qed.

(** X6.  There is no integer state on which both observers of [main] stay
    silent: A or B reacts, and both react exactly on 0 and on 2. *)
Theorem some_observer_reacts subject h z :
  state subject h = Some z ->
  (reacts reaction_A h (ConcreteObserverA_update subject h)
   \/ reacts reaction_B h (ConcreteObserverB_update subject h)) /\
  (reacts reaction_A h (ConcreteObserverA_update subject h)
   /\ reacts reaction_B h (ConcreteObserverB_update subject h)
   <-> z = 0 \/ z = 2).
Proof.
  intros Hz.
  assert (forall line (h0 : Heap ConcreteObserver Rng),
            ~ reacts line h0 (Return h0)) as Hquiet.
  { intros line h0 (h' & [= <-] & Hp). apply (f_equal length) in Hp.
    rewrite length_app in Hp. simpl in Hp. lia. }
  assert (forall line (h0 : Heap ConcreteObserver Rng),
            reacts line h0 (Return (print line h0))) as Hloud.
  { intros line h0. by eexists. }
  assert (reacts reaction_A h (ConcreteObserverA_update subject h) <-> z < 3)
    as HA.
  { unfold ConcreteObserverA_update. rewrite Hz. simpl. case_bool_decide.
    - split; [done | intros _; apply Hloud].
    - split; [intros Hr; by apply Hquiet in Hr | lia]. }
  assert (reacts reaction_B h (ConcreteObserverB_update subject h)
          <-> z = 0 \/ z >= 2) as HB.
  { unfold ConcreteObserverB_update. rewrite Hz. simpl.
    case_bool_decide; [|case_bool_decide].
    - split; [by left | intros _; apply Hloud].
    - split; [by right | intros _; apply Hloud].
    - split; [intros Hr; by apply Hquiet in Hr | lia]. }
  rewrite HA, HB. lia.
Qed.

(** X7.  A successful [detach] lowers by exactly one the number of times
    a later [notify] calls the detached observer, and leaves the number
    of calls of every other observer as it was. *)
Theorem detach_lowers_call_count self1 self2 o h fuel :
  o ∈ _observers h -> is_Some (state self2 h) ->
  (length (_observers h) < fuel)%nat ->
  exists h', detach self1 o h = Return h' /\
    forall x,
      length (filter (fun c => callee c = x) (notify update fuel self2 h).1)
      = (length (filter (fun c => callee c = x) (notify update fuel self2 h').1)
         + (if decide (o = x) then 1 else 0))%nat.
Proof.
  intros Hin Hs Hf.
  destruct (list_remove_elem o _ Hin) as (l1 & l2 & Hl & _ & Hr).
  exists (set_observers (l1 ++ l2) h). unfold detach. rewrite Hr.
  split; [done|]. intros x.
  set (h' := set_observers (l1 ++ l2) h).
  assert (length (_observers h') < fuel)%nat as Hf'.
  { simpl. rewrite Hl, length_app in Hf. rewrite length_app. simpl in Hf. lia. }
  destruct (notify_Return update self2 h fuel h update_no_mutation
              (update_returns_normally self2 h Hs) eq_refl Hf) as (k & -> & _).
  destruct (notify_Return update self2 h' fuel h' update_no_mutation
              (update_returns_normally self2 h' Hs) eq_refl Hf') as (k' & -> & _).
  simpl. rewrite !calls_to_count. by apply list_remove_count.
Qed.

End ConcreteRuns.

Lemma and_then_Return {Observer Rng} (cs : list (Call Observer))
    (h : Heap Observer Rng) k :
  (cs, Some (Return h)) >>> k = (cs ++ (k h).1, (k h).2).
Proof. unfold and_then. by destruct (k h). Qed.

(** X8.  [main] always succeeds, whatever the three draws: it ends
    without an exception after five calls of [update] (A and B in the
    first two cycles, B alone in the third, each seeing the draw of its
    cycle), with B alone left in the registry, the third draw as the
    state, and the console showing the two lines of [attach] followed by
    the lines of the three cycles. *)
Theorem main_succeeds fuel subject g :
  (2 < fuel)%nat ->
  let d1 := scripted_randrange 0 10 g in
  let d2 := scripted_randrange 0 10 d1.2 in
  let d3 := scripted_randrange 0 10 d2.2 in
  exists h,
    main fuel subject (initial g)
    = (calls_to subject (Some d1.1) [observer_a; observer_b]
       ++ calls_to subject (Some d2.1) [observer_a; observer_b]
       ++ calls_to subject (Some d3.1) [observer_b],
       Some (Return h)) /\
    _observers h = [observer_b] /\
    state subject h = Some d3.1 /\
    random h = d3.2 /\
    stdout h = ["Subject: Attached an observer."; "Subject: Attached an observer."]
               ++ cycle_lines d1.1 [observer_a; observer_b]
               ++ cycle_lines d2.1 [observer_a; observer_b]
               ++ cycle_lines d3.1 [observer_b].
Proof.
  intros Hf d1 d2 d3. subst d1 d2 d3. unfold main.
  pose (h2 := mkHeap (Rng := list Z) [observer_a; observer_b] ∅ g
                ["Subject: Attached an observer."; "Subject: Attached an observer."]).
  assert (call (attach subject observer_a) (initial g)
          >>> call (attach subject observer_b) = ([], Some (Return h2))) as E2
    by reflexivity.
  destruct (cycle_integer scripted_randrange subject h2 fuel)
    as (h3 & E3 & Hl3 & Hs3 & Hr3 & Ho3); [simpl; lia|].
  cbn [h2 _observers _state random stdout] in E3, Hl3, Hs3, Hr3, Ho3.
  destruct (cycle_integer scripted_randrange subject h3 fuel)
    as (h4 & E4 & Hl4 & Hs4 & Hr4 & Ho4); [rewrite Hl3; simpl; lia|].
  rewrite Hl3 in E4, Hl4, Ho4. rewrite Hr3 in E4, Hs4, Hr4, Ho4.
  assert (detach subject observer_a h4 = Return (set_observers [observer_b] h4))
    as E5.
  { unfold detach. rewrite Hl4. reflexivity. }
  destruct (cycle_integer scripted_randrange subject
              (set_observers [observer_b] h4) fuel)
    as (h6 & E6 & Hl6 & Hs6 & Hr6 & Ho6); [simpl; lia|].
  cbn [set_observers _observers _state random stdout] in E6, Hl6, Hs6, Hr6, Ho6.
  rewrite Hr4 in E6, Hs6, Hr6, Ho6.
  exists h6.
  rewrite E2, and_then_Return, E3. cbn [fst snd].
  rewrite and_then_Return, E4. cbn [fst snd].
  rewrite and_then_Return. unfold call at 1 2. cbn [fst snd]. rewrite E5.
  rewrite and_then_Return, E6. cbn [fst snd].
  split; [by rewrite app_nil_r, <- app_assoc|].
  split; [done|]. split.
  - unfold state. by rewrite Hs6, lookup_insert_eq.
  - split; [done|]. rewrite Ho6, Ho4, Ho3. by rewrite <- !app_assoc.
Qed.

(** ** The further theorems at concrete inputs *)

Lemma attach_detach_commute_witness :
  let h : Heap ConcreteObserver (list Z) :=
    heap_of (attach_all 0%nat [observer_a; observer_b] (initial [])) in
  (observer_a ∈ _observers h) /\
  call (attach 0%nat observer_a) h >>> call (detach 1%nat observer_a)
  = call (detach 1%nat observer_a) h >>> call (attach 0%nat observer_a).
Proof.
  intros h. assert (observer_a ∈ _observers h) as Hin by left.
  split; [exact Hin|].
  exact (proj1 (attach_detach_commute 0%nat 1%nat observer_a observer_a h Hin)).
Defined.

Lemma notify_raises_at_first_failure_witness :
  let h : Heap ConcreteObserver (list Z) :=
    heap_of (attach_all 0%nat [observer_b; observer_a] (initial [])) in
  exists h', notify update 8 0%nat h
             = (calls_to 0%nat (state 0%nat h) ([] ++ [observer_b]),
                Some (Raise TypeError h'))
             /\ subject_data h' = subject_data h.
Proof.
  intros h.
  apply (notify_raises_at_first_failure update 0%nat h [] observer_b
           [observer_a] TypeError 8).
  - apply update_no_mutation.
  - reflexivity.
  - intros x h1 Hx. by apply not_elem_of_nil in Hx.
  - intros h1 Hd. exists h1. simpl. unfold ConcreteObserverB_update.
    rewrite (state_subject_data 0%nat h1 h Hd). reflexivity.
  - simpl. lia.
Defined.

Lemma notify_repeatable_witness :
  let h : Heap ConcreteObserver (list Z) :=
    set_state 0%nat 2
      (heap_of (attach_all 0%nat [observer_a; observer_b] (initial []))) in
  exists h', notify update 8 0%nat h >>> notify update 8 0%nat
             = (calls_to 0%nat (Some 2) [observer_a; observer_b]
                ++ calls_to 0%nat (Some 2) [observer_a; observer_b],
                Some (Return h'))
             /\ subject_data h' = subject_data h.
Proof.
  intros h.
  apply (notify_repeatable update 0%nat h 8).
  - apply update_no_mutation.
  - apply update_returns_normally. vm_compute. eauto.
  - vm_compute. lia.
Defined.

Lemma cycle_output_witness :
  let h : Heap ConcreteObserver (list Z) :=
    heap_of (attach_all 0%nat [observer_b; observer_a; observer_b] (initial [12])) in
  exists h',
    some_business_logic scripted_randrange update 8 0%nat h
    = (calls_to 0%nat (Some 2) [observer_b; observer_a; observer_b],
       Some (Return h')) /\
    _observers h' = _observers h /\
    _state h' = <[0%nat := 2]> (_state h) /\
    random h' = [] /\
    stdout h' = stdout h ++ cycle_lines 2 [observer_b; observer_a; observer_b].
Proof.
  intros h.
  apply (cycle_output scripted_randrange 0%nat h 8). vm_compute. lia.
Defined.

Lemma notify_before_first_mutation_witness :
  let h : Heap ConcreteObserver (list Z) :=
    heap_of (attach_all 0%nat [observer_b; observer_a] (initial [])) in
  notify update 1 0%nat h
  = ([mkCall observer_b 0%nat None],
     Some (Raise TypeError (print "Subject: Notifying observers..." h)))
  /\ notify update 1 0%nat (initial ([] : list Z))
     = ([], Some (Return (print "Subject: Notifying observers..." (initial [])))).
Proof.
  intros h. split.
  - apply (notify_before_first_mutation 0%nat h 1); [reflexivity | lia].
  - apply (notify_before_first_mutation 0%nat (initial []) 1); [reflexivity | lia].
Defined.

Lemma some_observer_reacts_witness :
  let h : Heap ConcreteObserver (list Z) := set_state 0%nat 7 (initial []) in
  (reacts reaction_A h (ConcreteObserverA_update 0%nat h)
   \/ reacts reaction_B h (ConcreteObserverB_update 0%nat h)) /\
  (reacts reaction_A h (ConcreteObserverA_update 0%nat h)
   /\ reacts reaction_B h (ConcreteObserverB_update 0%nat h)
   <-> 7 = 0 \/ 7 = 2).
Proof.
  intros h. apply (some_observer_reacts 0%nat h 7). reflexivity.
Defined.

Lemma detach_lowers_call_count_witness :
  let h : Heap ConcreteObserver (list Z) :=
    set_state 0%nat 5
      (heap_of (attach_all 0%nat [observer_a; observer_b; observer_a] (initial []))) in
  exists h', detach 0%nat observer_a h = Return h' /\
    forall x,
      length (filter (fun c => callee c = x) (notify update 8 0%nat h).1)
      = (length (filter (fun c => callee c = x) (notify update 8 0%nat h').1)
         + (if decide (observer_a = x) then 1 else 0))%nat.
Proof.
  intros h.
  apply (detach_lowers_call_count 0%nat 0%nat observer_a h 8).
  - left.
  - vm_compute. eauto.
  - vm_compute. lia.
Defined.

Lemma main_succeeds_witness :
  exists h,
    main 3 0%nat (initial [41; 7])
    = (calls_to 0%nat (Some 1) [observer_a; observer_b]
       ++ calls_to 0%nat (Some 7) [observer_a; observer_b]
       ++ calls_to 0%nat (Some 0) [observer_b],
       Some (Return h)) /\
    _observers h = [observer_b] /\
    state 0%nat h = Some 0 /\
    random h = [] /\
    stdout h = ["Subject: Attached an observer."; "Subject: Attached an observer."]
               ++ cycle_lines 1 [observer_a; observer_b]
               ++ cycle_lines 7 [observer_a; observer_b]
               ++ cycle_lines 0 [observer_b].
Proof.
  apply (main_succeeds 3 0%nat [41; 7]). lia.
Defined.
